(** * emotional_simulation.py: the four emotional-dynamics models

    A shallow embedding of [src/emotional_simulation.py]: the four
    right-hand sides handed to the integrator, the module-level parameter
    bindings, the closed-form equilibrium expressions, and the two library
    calls the script is built on ([np.linspace] and [scipy.integrate.odeint]).

    Python's arithmetic is duck-typed: the same [def] runs on any number
    type.  The embedding keeps that: every function is written once over a
    class [Number], with two instances,
    - [float]: IEEE binary64, what the script's literals are at run time;
    - [Q]: exact rationals (every finite binary64 value is one), on which the
      algebraic facts about the models are stated. *)

From Stdlib Require Import ZArith QArith Qfield Floats List Bool Lia Lqa.
From stdpp Require Import gmap strings.
Import ListNotations.

Set Warnings "-inexact-float".

(** ** The fragment of the Python runtime the script relies on *)

Module Py.

(** The built-in exceptions the modelled statements can raise. *)
Inductive exn : Set :=
| ZeroDivisionError
| ValueError
| NameError.

(** Outcome of evaluating an expression or a statement. *)
Inductive result (T : Type) : Type :=
| Ok (v : T)
| Raise (e : exn).
Arguments Ok {T} v.
Arguments Raise {T} e.

(** Sequencing of statements: [x ← m; k] runs [k] unless [m] raised. *)
#[export] Instance result_bind : MBind result := fun T U f m =>
  match m with
  | Ok v => f v
  | Raise e => Raise e
  end.
#[export] Instance result_ret : MRet result := @Ok.

Definition returned {T : Type} (m : result T) : bool :=
  match m with Ok _ => true | Raise _ => false end.

(** Numbers as Python's operators see them.  [n_div] is the quotient for a
    non-zero divisor; the zero check Python performs first is in [truediv]. *)
Class Number (A : Type) : Type := {
  n_of_Z : Z -> A;              (* an [int] operand converted to this type *)
  n_add : A -> A -> A;
  n_sub : A -> A -> A;
  n_mul : A -> A -> A;
  n_neg : A -> A;
  n_div : A -> A -> A;
  n_eqb : A -> A -> bool;       (* [==] *)
  n_leb : A -> A -> bool;       (* [<=] *)
}.

(** [a / b]: [float.__truediv__] raises on a zero divisor (of either sign)
    before dividing. *)
Definition truediv {A : Type} `{Number A} (a b : A) : result A :=
  if n_eqb b (n_of_Z 0) then Raise ZeroDivisionError else Ok (n_div a b).

(** [int] to binary64; exact below 2^53. *)
Definition float_of_Z (z : Z) : float :=
  match z with
  | Z0 => PrimFloat.of_uint63 (Uint63.of_Z 0)
  | Zpos _ => PrimFloat.of_uint63 (Uint63.of_Z z)
  | Zneg p => PrimFloat.opp (PrimFloat.of_uint63 (Uint63.of_Z (Zpos p)))
  end.

#[export] Instance float_Number : Number float := {
  n_of_Z := float_of_Z;
  n_add := PrimFloat.add;
  n_sub := PrimFloat.sub;
  n_mul := PrimFloat.mul;
  n_neg := PrimFloat.opp;
  n_div := PrimFloat.div;
  n_eqb := PrimFloat.eqb;
  n_leb := PrimFloat.leb;
}.

#[export] Instance Q_Number : Number Q := {
  n_of_Z := inject_Z;
  n_add := Qplus;
  n_sub := Qminus;
  n_mul := Qmult;
  n_neg := Qopp;
  n_div := Qdiv;
  n_eqb := Qeq_bool;
  n_leb := Qle_bool;
}.

End Py.
Import Py.

Declare Scope py_scope.
Delimit Scope py_scope with py.
Notation "x + y" := (n_add x y) : py_scope.
Notation "x - y" := (n_sub x y) : py_scope.
Notation "x * y" := (n_mul x y) : py_scope.
Notation "- x" := (n_neg x) : py_scope.
Notation "x / y" := (truediv x y) : py_scope.
Notation "'int' z" := (n_of_Z z%Z) (at level 9, z at level 9) : py_scope.

(** ** The model right-hand sides *)

Section Models.
Context {A : Type} `{Number A}.
Local Open Scope py_scope.

(** Model I, [dy/dt = -ky]. *)
Definition linear_decay (y t k : A) : A :=
  - k * y.

(** Model II, [dy/dt = -ky + c]. *)
Definition forced_response (y t k c : A) : A :=
  - k * y + c.

(** Model III, [dy/dt = -ky + ay(1-y)]. *)
Definition nonlinear_regulation (y t k a : A) : A :=
  - k * y + a * y * (int 1 - y).

(** Model IV.  [z] is the two-element state the script unpacks with
    [x, y = z]; the returned two-element list [[dxdt, dydt]] has the same
    shape, and both are pairs here. *)
Definition coupled_system (z : A * A) (t a b c : A) : A * A :=
  let '(x, y) := z in
  let dxdt := - a * x + b * y in
  let dydt := - c * y in
  (dxdt, dydt).

(** Line 45, [equilibrium = c / k], as a function of the two globals it
    reads. *)
Definition equilibrium (c k : A) : result A :=
  c / k.

(** Line 75, [stable_eq = 1 - (k_nonlin/a)]. *)
Definition stable_eq (k_nonlin a : A) : result A :=
  q ← k_nonlin / a;
  Ok (int 1 - q).

End Models.

(** [[dxdt, dydt] == [0, 0]]: the derivative vector compares equal to zero. *)
Definition vanishes {A : Type} `{Number A} (d : A * A) : bool :=
  n_eqb (fst d) (n_of_Z 0) && n_eqb (snd d) (n_of_Z 0).

(** ** Module globals

    The script keeps its parameters in module-level names.  The namespace
    is a map from names to values, here restricted to its scalar entries; an
    assignment evaluates its right-hand side and binds the name, a read of an
    unbound name raises [NameError]. *)

Section Globals.
Context {A : Type} `{Number A}.
Local Open Scope py_scope.

Definition load_name (name : string) (g : gmap string A) : result A :=
  match g !! name with
  | Some v => Ok v
  | None => Raise NameError
  end.

Definition assign (name : string) (e : result A) (g : gmap string A)
  : result (gmap string A) :=
  v ← e;
  Ok (<[name := v]> g).

(** Lines 15-16, [k = ...] and [y0 = ...], for arbitrary literal values. *)
Definition parameters_I (k y0 : A) (g : gmap string A) : result (gmap string A) :=
  g ← assign "k" (Ok k) g;
  assign "y0" (Ok y0) g.

(** Lines 43-44, [c = ...] and [y0_forced = ...]. *)
Definition parameters_II (c y0_forced : A) (g : gmap string A)
  : result (gmap string A) :=
  g ← assign "c" (Ok c) g;
  assign "y0_forced" (Ok y0_forced) g.

(** Line 45 as a statement: read [c] and [k], divide, bind [equilibrium]. *)
Definition line_45 (g : gmap string A) : result (gmap string A) :=
  assign "equilibrium" (c ← load_name "c" g; k ← load_name "k" g; equilibrium c k) g.

End Globals.

(** ** [numpy.linspace]

    The time grids come from [np.linspace(start, stop, num)], called with the
    defaults ([endpoint=True], scalar bounds).  This follows numpy's
    [function_base.linspace] for that call shape. *)

Module np.
Section Linspace.
Context {A : Type} `{Number A}.
Local Open Scope py_scope.

(** [arange(0, num)] in the result type. *)
Definition arange (num : Z) : list A :=
  map (fun i => int (Z.of_nat i)) (seq 0 (Z.to_nat num)).

(** [y[-1] = v] *)
Definition set_last (y : list A) (v : A) : list A :=
  <[Nat.pred (length y) := v]> y.

Definition linspace (start stop : A) (num : Z) : result (list A) :=
  if (num <? 0)%Z then Raise ValueError
  else
    let div := (num - 1)%Z in
    let delta := stop - start in
    let y := arange num in
    let y :=
      if (0 <? div)%Z then
        let step := n_div delta (int div) in
        if n_eqb step (int 0)
        then map (fun v => n_div v (int div) * delta) y
        else map (fun v => v * step) y
      else map (fun v => v * delta) y in
    let y := map (fun v => v + start) y in
    Ok (if (1 <? num)%Z then set_last y stop else y).

End Linspace.
End np.

(** ** [scipy.integrate.odeint]

    [odeint(func, y0, t, args)] is SciPy's driver around LSODA.  The driver is
    modelled as it runs: it refuses a grid that is neither non-decreasing nor
    non-increasing, copies [y0] into the first output row, then asks the
    solver to advance from each grid time to the next and stores what it
    returns.  When the solver reports failure the loop stops and the
    remaining rows keep whatever the freshly allocated output array held:
    [unwritten r] is that content for row [r].  It belongs to one call; two
    calls get two arrays.  An empty [t] gives an empty result.

    The adaptive solver itself is a parameter: [lsoda func w y t tout] is one
    call, from state [y] at time [t] to time [tout] with work arrays [w],
    returning the new state, the new work arrays and whether it succeeded. *)

Module scipy.
Section Odeint.
Context {A : Type} `{Number A} {St Args W : Type}.
Variable lsoda : (St -> A -> St) -> W -> St -> A -> A -> St * W * bool.
Variable w0 : W.
Variable unwritten : nat -> St.
Local Open Scope py_scope.

(** [np.diff(t)] *)
Definition diff (t : list A) : list A :=
  zip_with (fun a b => b - a) t (tail t).

(** [(dt >= 0).all() or (dt <= 0).all()] *)
Definition monotonic (t : list A) : bool :=
  let dt := diff t in
  forallb (fun d => n_leb (int 0) d) dt || forallb (fun d => n_leb d (int 0)) dt.

(** The output rows from row [row] on, one per remaining output time. *)
Fixpoint rows (func : St -> A -> St) (w : W) (y : St) (t : A) (touts : list A)
         (running : bool) (row : nat) : list St :=
  match touts with
  | [] => []
  | tout :: touts' =>
      if running then
        let '(y', w', ok) := lsoda func w y t tout in
        y' :: rows func w' y' tout touts' ok (S row)
      else unwritten row :: rows func w y t touts' false (S row)
  end.

Definition odeint (func : St -> A -> Args -> St) (y0 : St) (t : list A) (args : Args)
  : result (list St) :=
  if negb (monotonic t) then Raise ValueError
  else
    match t with
    | [] => Ok []
    | t0 :: touts =>
        Ok (y0 :: rows (fun y t => func y t args) w0 y0 t0 touts true 1)
    end.


End Odeint.
End scipy.

(** The spec's Time Grid: at least two samples, in non-decreasing order. *)
Fixpoint nondecreasing {A : Type} `{Number A} (t : list A) : bool :=
  match t with
  | a :: (b :: _) as t' => n_leb a b && nondecreasing t'
  | _ => true
  end.

Definition valid_time_grid {A : Type} `{Number A} (t : list A) : bool :=
  (2 <=? length t)%nat && nondecreasing t.

(** [s[i] < s[i+1]] all along, with [a < b] read as [a <= b and not b <= a]
    (false as soon as a NaN is involved). *)
Fixpoint strictly_increasing {A : Type} `{Number A} (t : list A) : bool :=
  match t with
  | a :: (b :: _) as t' =>
      n_leb a b && negb (n_leb b a) && strictly_increasing t'
  | _ => true
  end.

(** A solver to run [odeint] with on concrete inputs: one explicit Euler step
    per call, no work arrays, never failing.  It stands in for LSODA only
    where a statement about every solver is instantiated. *)
Definition euler_call {A : Type} `{Number A}
           (func : A -> A -> A) (w : unit) (y t tout : A) : A * unit * bool :=
  (n_add y (n_mul (n_sub tout t) (func y t)), tt, true).

(** ** The script's globals, in binary64 *)

Module Script.
Local Open Scope float_scope.

Definition k : float := 0.5.
Definition y0 : float := 10.0.
Definition t : result (list float) := np.linspace (n_of_Z 0) (n_of_Z 20) 100.

Definition c : float := 2.0.
Definition y0_forced : float := 0.0.
Definition equilibrium : result float := equilibrium c k.

Definition k_nonlin : float := 0.2.
Definition a : float := 0.8.
Definition y0_values : list float := [0.1; 0.5; 1.2].
Definition t_long : result (list float) := np.linspace (n_of_Z 0) (n_of_Z 30) 100.
Definition stable_eq : result float := stable_eq k_nonlin a.

Definition params : float * float * float := (0.5, 0.5, 0.2).
Definition initial_state : float * float := (5.0, 5.0).

Section Solve.
Context {W1 W2 : Type}.
Variable lsoda1 : (float -> float -> float) -> W1 -> float -> float -> float
                  -> float * W1 * bool.
Variable lsoda2 : (float * float -> float -> float * float) -> W2 -> float * float
                  -> float -> float -> float * float * W2 * bool.
Variable w1 : W1.
Variable w2 : W2.
Variable junk_linear junk_forced junk_sol : nat -> float.
Variable junk_solution : nat -> float * float.

(** Line 20. *)
Definition y_linear : result (list float) :=
  t ← t;
  scipy.odeint lsoda1 w1 junk_linear (fun y t k => linear_decay y t k) y0 t k.

(** Line 48. *)
Definition y_forced : result (list float) :=
  t ← t;
  scipy.odeint lsoda1 w1 junk_forced (fun y t '(k, c) => forced_response y t k c)
               y0_forced t (k, c).

(** Line 80, the body of the loop over [y0_values]. *)
Definition y_sol (y0 : float) : result (list float) :=
  t_long ← t_long;
  scipy.odeint lsoda1 w1 junk_sol (fun y t '(k, a) => nonlinear_regulation y t k a)
               y0 t_long (k_nonlin, a).

(** Line 109. *)
Definition solution : result (list (float * float)) :=
  t_long ← t_long;
  scipy.odeint lsoda2 w2 junk_solution (fun z t '(a, b, c) => coupled_system z t a b c)
               initial_state t_long params.

End Solve.
End Script.

(** ** The remaining statements of the script *)

(** What a module global can hold: a number, or an array such as [y_sol]. *)
Inductive value (A : Type) : Type :=
| Num (x : A)
| Arr (xs : list A).
Arguments Num {A} x.
Arguments Arr {A} xs.

(** Lines 79-81, [for y0 in y0_values: y_sol = odeint(...); plt.plot(...)].
    The loop variable is the module-level name [y0] and the result goes to
    the module-level name [y_sol], so every iteration rebinds both; each
    iteration integrates the nonlinear model from that state and hands the
    curve to the plot.  The state threaded through the loop is the globals
    together with the curves plotted so far; [t_long], [k_nonlin] and [a] are
    the globals the body reads.  Iteration [i] calls [odeint] with an output
    array of its own, [unwritten i]. *)

Section Sweep.
Context {A : Type} `{Number A} {W : Type}.
Variable lsoda : (A -> A -> A) -> W -> A -> A -> A -> A * W * bool.
Variable w0 : W.
Variable unwritten : nat -> nat -> A.

Definition loop_body (t_long : list A) (k_nonlin a : A) (i : nat)
           (st : gmap string (value A) * list (list A)) (y0 : A)
  : result (gmap string (value A) * list (list A)) :=
  g ← assign "y0" (Ok (Num y0)) (fst st);
  curve ← scipy.odeint lsoda w0 (unwritten i)
            (fun y t '(k, a) => nonlinear_regulation y t k a) y0 t_long (k_nonlin, a);
  g ← assign "y_sol" (Ok (Arr curve)) g;
  Ok (g, snd st ++ [curve]).

Fixpoint for_y0_in (y0_values : list A) (t_long : list A) (k_nonlin a : A)
         (i : nat) (st : gmap string (value A) * list (list A))
  : result (gmap string (value A) * list (list A)) :=
  match y0_values with
  | [] => Ok st
  | y0 :: rest =>
      st' ← loop_body t_long k_nonlin a i st y0;
      for_y0_in rest t_long k_nonlin a (S i) st'
  end.

End Sweep.

(** Line 110, [x_sol = solution[:, 0]]. *)
Definition x_sol {A : Type} (solution : list (A * A)) : list A :=
  map fst solution.

(** Line 111, [y_sol = solution[:, 1]]. *)
Definition y_sol {A : Type} (solution : list (A * A)) : list A :=
  map snd solution.

(** * Properties *)

(** ** The models over exact rationals *)

Section Rational.
Local Open Scope Q_scope.

Lemma forced_response_Q (y t k c : Q) : forced_response y t k c = - k * y + c.
Proof. reflexivity. Qed.

Lemma linear_decay_Q (y t k : Q) : linear_decay y t k = - k * y.
Proof. reflexivity. Qed.

Lemma nonlinear_regulation_Q (y t k a : Q) :
  nonlinear_regulation y t k a = - k * y + a * y * (1 - y).
Proof. reflexivity. Qed.

Lemma truediv_Q_nonzero (a b : Q) : ~ b == 0 -> truediv a b = Ok (a / b).
Proof.
  intros Hb. unfold truediv. cbn [n_eqb n_of_Z n_div Q_Number].
  destruct (Qeq_bool b (inject_Z 0)) eqn:E; [|reflexivity].
  apply Qeq_bool_iff in E. contradiction.
Qed.

Lemma truediv_zero {A : Type} `{Number A} (a b : A) :
  n_eqb b (n_of_Z 0) = true -> truediv a b = Raise ZeroDivisionError.
Proof. intros E. unfold truediv. rewrite E. reflexivity. Qed.

Lemma forced_response_root (y t k c : Q) :
  ~ k == 0 -> (forced_response y t k c == 0 <-> y == c / k).
Proof.
  intros Hk. rewrite forced_response_Q. split; intros Hy.
  - assert (Hc : c == k * y) by lra.
    rewrite Hc. field. exact Hk.
  - rewrite Hy. field. exact Hk.
Qed.

Lemma nonlinear_regulation_root (y t k a : Q) :
  ~ a == 0 -> (nonlinear_regulation y t k a == 0 <-> y == 0 \/ y == 1 - k / a).
Proof.
  intros Ha. rewrite nonlinear_regulation_Q. split.
  - intros Hy.
    assert (Hf : y * (a - k - a * y) == 0) by (rewrite <- Hy; ring).
    apply Qmult_integral in Hf. destruct Hf as [Hf | Hf]; [left; exact Hf | right].
    assert (Hay : a * y == a - k) by lra.
    setoid_replace y with (a * y / a) using relation Qeq by (field; exact Ha).
    rewrite Hay. field. exact Ha.
  - intros [Hy | Hy]; rewrite Hy; [ring | field; exact Ha].
Qed.

End Rational.

(** ** Binary64 facts *)

Section Binary64.
Local Open Scope float_scope.

Lemma SFeqb_refl_not_nan (x : spec_float) : x <> S754_nan -> SFeqb x x = true.
Proof.
  intros Hx. destruct x as [s | s | | s m e]; try (destruct s; reflexivity).
  - contradiction.
  - unfold SFeqb, SFcompare.
    destruct s; rewrite Z.compare_refl, Pos.compare_cont_refl; reflexivity.
Qed.

Lemma is_nan_spec (x : float) : PrimFloat.is_nan x = true <-> Prim2SF x = S754_nan.
Proof.
  unfold PrimFloat.is_nan. rewrite negb_true_iff, FloatAxioms.eqb_spec. split.
  - intros Hx. destruct (Prim2SF x) as [s | s | | s m e] eqn:E; try reflexivity;
      rewrite SFeqb_refl_not_nan in Hx by discriminate; discriminate Hx.
  - intros ->. reflexivity.
Qed.

Lemma nan_opp (x : float) : PrimFloat.is_nan x = true -> PrimFloat.is_nan (- x) = true.
Proof.
  rewrite !is_nan_spec, FloatAxioms.opp_spec. intros ->. reflexivity.
Qed.

Lemma nan_mul_l (x y : float) :
  PrimFloat.is_nan x = true -> PrimFloat.is_nan (x * y) = true.
Proof.
  rewrite !is_nan_spec, FloatAxioms.mul_spec. intros ->. reflexivity.
Qed.

Lemma nan_mul_r (x y : float) :
  PrimFloat.is_nan y = true -> PrimFloat.is_nan (x * y) = true.
Proof.
  rewrite !is_nan_spec, FloatAxioms.mul_spec. intros ->.
  destruct (Prim2SF x); reflexivity.
Qed.

Lemma nan_add_l (x y : float) :
  PrimFloat.is_nan x = true -> PrimFloat.is_nan (x + y) = true.
Proof.
  rewrite !is_nan_spec, FloatAxioms.add_spec. intros ->. reflexivity.
Qed.

Lemma nan_add_r (x y : float) :
  PrimFloat.is_nan y = true -> PrimFloat.is_nan (x + y) = true.
Proof.
  rewrite !is_nan_spec, FloatAxioms.add_spec. intros ->.
  destruct (Prim2SF x); reflexivity.
Qed.

Lemma nan_sub_r (x y : float) :
  PrimFloat.is_nan y = true -> PrimFloat.is_nan (x - y) = true.
Proof.
  rewrite !is_nan_spec, FloatAxioms.sub_spec. intros ->.
  destruct (Prim2SF x); reflexivity.
Qed.

Lemma nan_div_r (x y : float) :
  PrimFloat.is_nan y = true -> PrimFloat.is_nan (x / y) = true.
Proof.
  rewrite !is_nan_spec, FloatAxioms.div_spec. intros ->.
  destruct (Prim2SF x); reflexivity.
Qed.

Lemma nan_is_not_zero (x : float) :
  PrimFloat.is_nan x = true -> PrimFloat.eqb x (float_of_Z 0) = false.
Proof.
  rewrite is_nan_spec, FloatAxioms.eqb_spec. intros ->. reflexivity.
Qed.

Lemma is_finite_spec (x : float) :
  PrimFloat.is_finite x = true ->
  (exists s, Prim2SF x = S754_zero s) \/ (exists s m e, Prim2SF x = S754_finite s m e).
Proof.
  unfold PrimFloat.is_finite. rewrite negb_true_iff, orb_false_iff.
  intros [Hnan Hinf].
  destruct (Prim2SF x) as [s | s | | s m e] eqn:E.
  - left. exists s. reflexivity.
  - exfalso. unfold PrimFloat.is_infinity in Hinf.
    rewrite FloatAxioms.eqb_spec, FloatAxioms.abs_spec, E in Hinf.
    change (Prim2SF infinity) with (S754_infinity false) in Hinf.
    discriminate Hinf.
  - exfalso. apply is_nan_spec in E. rewrite E in Hnan. discriminate Hnan.
  - right. exists s, m, e. reflexivity.
Qed.

(** A finite number times zero is a zero, of one sign or the other. *)
Lemma finite_mul_zero (x z : float) (sz : bool) :
  PrimFloat.is_finite x = true ->
  Prim2SF z = S754_zero sz ->
  exists s, Prim2SF (x * z) = S754_zero s.
Proof.
  intros Hx Hz. rewrite FloatAxioms.mul_spec, Hz.
  destruct (is_finite_spec x Hx) as [[s ->] | (s & m & e & ->)];
    eexists; reflexivity.
Qed.

Lemma finite_opp_mul_zero (x z : float) (sz : bool) :
  PrimFloat.is_finite x = true ->
  Prim2SF z = S754_zero sz ->
  exists s, Prim2SF (- x * z) = S754_zero s.
Proof.
  intros Hx Hz. rewrite FloatAxioms.mul_spec, FloatAxioms.opp_spec, Hz.
  destruct (is_finite_spec x Hx) as [[s ->] | (s & m & e & ->)];
    eexists; reflexivity.
Qed.

(** The sum of two zeros compares equal to zero. *)
Lemma zero_add_zero (x y : float) (sx sy : bool) :
  Prim2SF x = S754_zero sx ->
  Prim2SF y = S754_zero sy ->
  PrimFloat.eqb (x + y) (float_of_Z 0) = true.
Proof.
  intros Hx Hy. rewrite FloatAxioms.eqb_spec, FloatAxioms.add_spec, Hx, Hy.
  destruct sx, sy; reflexivity.
Qed.

Lemma zero_eqb_zero (x : float) (sx : bool) :
  Prim2SF x = S754_zero sx -> PrimFloat.eqb x (float_of_Z 0) = true.
Proof. intros Hx. rewrite FloatAxioms.eqb_spec, Hx. reflexivity. Qed.

End Binary64.

(** ** The equilibrium expressions *)

(** C1 (corrected form): when the denominator coefficient compares equal to
    zero, the equilibrium expressions do not produce a soft result: [c / k] and
    [1 - k_nonlin / a] raise [ZeroDivisionError], and so does the statement of
    line 45 run on globals that bind [k] to such a value. *)
Theorem equilibrium_zero_denominator {A : Type} `{Number A}
        (num den : A) (g : gmap string A) :
  n_eqb den (n_of_Z 0) = true ->
  equilibrium num den = Raise ZeroDivisionError /\
  stable_eq num den = Raise ZeroDivisionError /\
  line_45 (<["k" := den]> (<["c" := num]> g)) = Raise ZeroDivisionError.
Proof.
  intros Hden.
  assert (Hdiv : truediv num den = Raise ZeroDivisionError)
    by (apply truediv_zero; exact Hden).
  split; [exact Hdiv | split].
  - unfold stable_eq. rewrite Hdiv. reflexivity.
  - unfold line_45, load_name.
    rewrite lookup_insert_eq, lookup_insert_ne, lookup_insert_eq by done. cbn.
    unfold equilibrium. rewrite Hdiv. reflexivity.
Qed.

Lemma equilibrium_zero_denominator_witness :
  equilibrium 2%float 0%float = Raise ZeroDivisionError /\
  stable_eq 2%float 0%float = Raise ZeroDivisionError /\
  line_45 (<["k" := 0%float]> (<["c" := 2%float]> ∅)) = Raise ZeroDivisionError.
Proof. apply (equilibrium_zero_denominator 2%float 0%float ∅). reflexivity. Defined.

(** C1, counterexample to a soft result: with [k = 0] and [c = 2.0] the
    analyzer's expression raises instead of returning a value. *)
Lemma equilibrium_raises_at_zero :
  equilibrium 2%float 0%float = Raise ZeroDivisionError /\
  returned (equilibrium 2%float 0%float) = false.
Proof. split; reflexivity. Qed.

Lemma truediv_nonzero {A : Type} `{Number A} (a b : A) :
  n_eqb b (n_of_Z 0) = false -> truediv a b = Ok (n_div a b).
Proof. intros E. unfold truediv. rewrite E. reflexivity. Qed.

(** C4 (corrected form): over exact rationals, for [k <> 0] the forced
    response vanishes at [y = c / k] and nowhere else, and the equilibrium
    expression evaluates to that quotient.  On every number type, binary64
    included, the expression returns the machine quotient whenever [k] does
    not compare equal to zero.  With the script's [k = 0.5], [c = 2.0] it is
    [4.0] in binary64, and the right-hand side is exactly zero there. *)
Theorem forced_response_unique_equilibrium (k c t : Q) :
  ~ (k == 0)%Q ->
  (forall y : Q, (forced_response y t k c == 0)%Q <-> (y == c / k)%Q) /\
  equilibrium c k = Ok (c / k)%Q /\
  (forall (A : Type) (H : Number A) (c' k' : A),
      n_eqb k' (n_of_Z 0) = false -> equilibrium c' k' = Ok (n_div c' k')) /\
  Script.equilibrium = Ok 4%float /\
  forced_response 4%float 0%float Script.k Script.c = 0%float.
Proof.
  intros Hk. split; [| split; [| split; [| split]]].
  - intros y. apply forced_response_root. exact Hk.
  - unfold equilibrium. apply truediv_Q_nonzero. exact Hk.
  - intros A H c' k' Hk'. unfold equilibrium. apply truediv_nonzero. exact Hk'.
  - reflexivity.
  - reflexivity.
Qed.

Lemma forced_response_unique_equilibrium_witness :
  (forall y : Q, (forced_response y 0 (1 # 2) 2 == 0)%Q <-> (y == 2 / (1 # 2))%Q) /\
  equilibrium 2%Q (1 # 2)%Q = Ok (2 / (1 # 2))%Q /\
  equilibrium 1%float 49%float = Ok (n_div 1%float 49%float) /\
  Script.equilibrium = Ok 4%float /\
  forced_response 4%float 0%float Script.k Script.c = 0%float.
Proof.
  destruct (forced_response_unique_equilibrium (1 # 2) 2 0)
    as (Hroot & Hq & Hany & Hscript & Hzero); [unfold Qeq; simpl; lia |].
  split; [exact Hroot |]. split; [exact Hq |]. split; [| split; assumption].
  apply (Hany float float_Number 1%float 49%float). reflexivity.
Defined.

(** C4, counterexample in binary64: with [k = 49], [c = 1] the value the
    equilibrium expression returns is not a zero of the right-hand side; and
    with [k = 0.1], [c = 0.1 * 3] the right-hand side is zero at two different
    states, [3.0] and the next binary64 number above it. *)
Lemma forced_response_binary64_equilibria :
  equilibrium 1%float 49%float = Ok (1 / 49)%float /\
  n_eqb (forced_response (1 / 49)%float 0%float 49%float 1%float) 0%float = false /\
  n_eqb 49%float 0%float = false /\
  n_eqb (forced_response 3%float 0%float 0.1%float (0.1 * 3)%float) 0%float = true /\
  n_eqb (forced_response (next_up 3)%float 0%float 0.1%float (0.1 * 3)%float) 0%float
  = true /\
  n_eqb 3%float (next_up 3)%float = false /\
  n_eqb 0.1%float 0%float = false.
Proof. repeat split; reflexivity. Qed.

(** C5 (corrected form): over exact rationals, for [a <> 0] the nonlinear
    right-hand side vanishes exactly at [y = 0] and [y = 1 - k/a], and the
    [stable_eq] expression evaluates to [1 - k/a].  On every number type,
    binary64 included, the expression returns the machine value of
    [1 - k/a] whenever [a] does not compare equal to zero.  With the script's
    [k_nonlin = 0.2], [a = 0.8] it is [0.75] in binary64, and the right-hand
    side is exactly zero there. *)
Theorem nonlinear_regulation_equilibria (k a t : Q) :
  ~ (a == 0)%Q ->
  (forall y : Q,
      (nonlinear_regulation y t k a == 0)%Q <-> (y == 0)%Q \/ (y == 1 - k / a)%Q) /\
  stable_eq k a = Ok (1 - k / a)%Q /\
  (forall (A : Type) (H : Number A) (k' a' : A),
      n_eqb a' (n_of_Z 0) = false ->
      stable_eq k' a' = Ok (n_sub (n_of_Z 1) (n_div k' a'))) /\
  Script.stable_eq = Ok 0.75%float /\
  nonlinear_regulation 0.75%float 0%float Script.k_nonlin Script.a = 0%float.
Proof.
  intros Ha. split; [| split; [| split; [| split]]].
  - intros y. apply nonlinear_regulation_root. exact Ha.
  - unfold stable_eq. rewrite (truediv_Q_nonzero k a Ha). reflexivity.
  - intros A H k' a' Ha'. unfold stable_eq.
    rewrite (truediv_nonzero k' a' Ha'). reflexivity.
  - reflexivity.
  - reflexivity.
Qed.

Lemma nonlinear_regulation_equilibria_witness :
  (forall y : Q,
      (nonlinear_regulation y 0 (2 # 10) (8 # 10) == 0)%Q
      <-> (y == 0)%Q \/ (y == 1 - (2 # 10) / (8 # 10))%Q) /\
  stable_eq (2 # 10)%Q (8 # 10)%Q = Ok (1 - (2 # 10) / (8 # 10))%Q /\
  stable_eq 0.1%float 0.7%float
  = Ok (n_sub (n_of_Z 1) (n_div 0.1%float 0.7%float)) /\
  Script.stable_eq = Ok 0.75%float /\
  nonlinear_regulation 0.75%float 0%float Script.k_nonlin Script.a = 0%float.
Proof.
  destruct (nonlinear_regulation_equilibria (2 # 10) (8 # 10) 0)
    as (Hroot & Hq & Hany & Hscript & Hzero); [unfold Qeq; simpl; lia |].
  split; [exact Hroot |]. split; [exact Hq |]. split; [| split; assumption].
  apply (Hany float float_Number 0.1%float 0.7%float). reflexivity.
Defined.

(** C5, counterexample in binary64: with [k = 0.1], [a = 0.7] the value
    [stable_eq] returns is not a zero of the right-hand side; and with
    [k = 0.2], [a = 0.4] the smallest positive binary64 number is a third
    zero, neither [0] nor the [0.5] that [stable_eq] returns. *)
Lemma nonlinear_regulation_binary64_equilibria :
  stable_eq 0.1%float 0.7%float = Ok (1 - 0.1 / 0.7)%float /\
  n_eqb (nonlinear_regulation (1 - 0.1 / 0.7)%float 0%float 0.1%float 0.7%float)
        0%float = false /\
  n_eqb 0.7%float 0%float = false /\
  n_eqb (nonlinear_regulation 0x1p-1074%float 0%float 0.2%float 0.4%float) 0%float
  = true /\
  n_eqb 0x1p-1074%float 0%float = false /\
  stable_eq 0.2%float 0.4%float = Ok 0.5%float /\
  n_eqb 0x1p-1074%float 0.5%float = false /\
  n_eqb 0.4%float 0%float = false.
Proof. repeat split; reflexivity. Qed.

(** ** The coupled system *)

Lemma vanishes_Q (d : Q * Q) :
  vanishes d = true <-> (fst d == 0)%Q /\ (snd d == 0)%Q.
Proof.
  unfold vanishes. cbn [n_eqb n_of_Z Q_Number].
  rewrite andb_true_iff, !Qeq_bool_iff. reflexivity.
Qed.

Lemma coupled_system_Q (x y t a b c : Q) :
  coupled_system (x, y) t a b c = (- a * x + b * y, - c * y)%Q.
Proof. reflexivity. Qed.

(** C6 (corrected form): over exact rationals, when both [c] and [a] are
    non-zero the derivative vector returned by [coupled_system] is zero at
    [(0, 0)] and at no other state; at [(0, 0)] it is zero whatever the
    coefficients, and with [a = 0] it is zero at every state [(x, 0)].  In
    binary64 it compares equal to zero at [(0, 0)] for all finite
    coefficients. *)
Theorem coupled_system_unique_equilibrium (a b c t x y : Q) :
  ~ (c == 0)%Q ->
  ~ (a == 0)%Q ->
  (vanishes (coupled_system (x, y) t a b c) = true <-> (x == 0)%Q /\ (y == 0)%Q) /\
  (forall a' b' c' : Q, vanishes (coupled_system (0%Q, 0%Q) t a' b' c') = true) /\
  (forall x' b' c' : Q, vanishes (coupled_system (x', 0%Q) t 0%Q b' c') = true) /\
  (forall a' b' c' t' : float,
      PrimFloat.is_finite a' = true ->
      PrimFloat.is_finite b' = true ->
      PrimFloat.is_finite c' = true ->
      vanishes (coupled_system (0%float, 0%float) t' a' b' c') = true).
Proof.
  intros Hc Ha. split; [| split; [| split]].
  - rewrite vanishes_Q, coupled_system_Q. cbn [fst snd]. split.
    + intros [Hx Hy].
      assert (Hy0 : (y == 0)%Q).
      { destruct (Qmult_integral (- c) y) as [E | E]; [exact Hy | | exact E].
        exfalso. apply Hc. lra. }
      split; [| exact Hy0].
      rewrite Hy0 in Hx.
      destruct (Qmult_integral (- a) x) as [E | E]; [lra | | exact E].
      exfalso. apply Ha. lra.
    + intros [Hx Hy]. rewrite Hx, Hy. split; ring.
  - intros a' b' c'. apply vanishes_Q. rewrite coupled_system_Q. cbn [fst snd].
    split; ring.
  - intros x' b' c'. apply vanishes_Q. rewrite coupled_system_Q. cbn [fst snd].
    split; ring.
  - intros a' b' c' t' Fa Fb Fc.
    assert (Hz : Prim2SF 0%float = S754_zero false) by reflexivity.
    destruct (finite_opp_mul_zero a' 0%float false Fa Hz) as [sa Ea].
    destruct (finite_mul_zero b' 0%float false Fb Hz) as [sb Eb].
    destruct (finite_opp_mul_zero c' 0%float false Fc Hz) as [sc Ec].
    unfold vanishes, coupled_system. cbn [fst snd n_eqb n_of_Z n_add n_mul n_neg
                                          float_Number].
    rewrite (zero_add_zero _ _ sa sb Ea Eb), (zero_eqb_zero _ sc Ec). reflexivity.
Qed.

Lemma coupled_system_unique_equilibrium_witness :
  (vanishes (coupled_system (3%Q, 0%Q) 0%Q (1 # 2)%Q (1 # 2)%Q (1 # 5)%Q) = true
   <-> (3 == 0)%Q /\ (0 == 0)%Q) /\
  (forall a' b' c' : Q, vanishes (coupled_system (0%Q, 0%Q) 0%Q a' b' c') = true) /\
  (forall x' b' c' : Q, vanishes (coupled_system (x', 0%Q) 0%Q 0%Q b' c') = true) /\
  vanishes (coupled_system (0%float, 0%float) 0%float 0.5%float 0.5%float 0.2%float)
  = true.
Proof.
  destruct (coupled_system_unique_equilibrium (1 # 2) (1 # 2) (1 # 5) 0 3 0)
    as (Hiff & Horigin & Haxis & Hfloat); [unfold Qeq; simpl; lia .. |].
  split; [exact Hiff |]. split; [exact Horigin |]. split; [exact Haxis |].
  apply (Hfloat 0.5%float 0.5%float 0.2%float 0%float); reflexivity.
Defined.

(** C6, counterexample to uniqueness under [c <> 0] alone: with [a = 0] (and
    [c = 0.2 <> 0]) the state [(1, 0)], which is not [(0, 0)], has a zero
    derivative vector, over the rationals and in binary64 alike.  In binary64
    two more things happen: with the script's own [a = 0.5], [b = 0.5],
    [c = 0.2] the state [(0, 0x1p-1074)] has a zero derivative vector as well
    (the products underflow), and with an infinite [a] the derivative at
    [(0, 0)] is not zero. *)
Lemma coupled_system_other_equilibrium :
  vanishes (coupled_system (1%Q, 0%Q) 0%Q 0%Q (1 # 2)%Q (1 # 5)%Q) = true /\
  vanishes (coupled_system (1%float, 0%float) 0%float 0%float 0.5%float 0.2%float) = true /\
  Qeq_bool 1 0 = false /\ Qeq_bool (1 # 5) 0 = false /\
  PrimFloat.eqb 1 0 = false /\ PrimFloat.eqb 0.2 0 = false /\
  vanishes (coupled_system (0%float, 0x1p-1074%float) 0%float
                           0.5%float 0.5%float 0.2%float) = true /\
  PrimFloat.eqb 0x1p-1074 0 = false /\ PrimFloat.eqb 0.5 0 = false /\
  vanishes (coupled_system (0%float, 0%float) 0%float infinity 0.5%float 0.2%float)
  = false.
Proof. repeat split; reflexivity. Qed.

(** The second component of [coupled_system] is the linear decay of [y] at
    rate [c]. *)
Lemma coupled_system_dydt {A : Type} `{Number A} (t a b c x y : A) :
  snd (coupled_system (x, y) t a b c) = linear_decay y t c.
Proof. unfold coupled_system, linear_decay. reflexivity. Qed.

(** C9: the second component of [coupled_system] does not depend on [x], for
    every number type the function runs on: at any two values of [x] it is
    the same, namely the linear decay of [y] at rate [c]. *)
Theorem coupled_system_dydt_independent_of_x {A : Type} `{Number A}
        (t a b c y x1 x2 : A) :
  snd (coupled_system (x1, y) t a b c) = snd (coupled_system (x2, y) t a b c) /\
  snd (coupled_system (x1, y) t a b c) = linear_decay y t c.
Proof.
  split.
  - rewrite (coupled_system_dydt t a b c x1 y), (coupled_system_dydt t a b c x2 y).
    reflexivity.
  - apply coupled_system_dydt.
Qed.

(** Adding [0.0] to a binary64 value that is not NaN gives a value that
    compares equal to it ([-0.0 + 0.0] is [0.0], and [0.0 == -0.0]). *)
Lemma float_add_zero (x : float) :
  PrimFloat.is_nan x = false ->
  PrimFloat.eqb (PrimFloat.add x (float_of_Z 0)) x = true.
Proof.
  unfold PrimFloat.is_nan. intros Hx. apply negb_false_iff in Hx.
  rewrite FloatAxioms.eqb_spec in Hx. rewrite FloatAxioms.eqb_spec, FloatAxioms.add_spec.
  change (Prim2SF (float_of_Z 0)) with (S754_zero false).
  destruct (Prim2SF x) as [s | s | | s m e]; cbn in Hx |- *.
  - destruct s; reflexivity.
  - destruct s; reflexivity.
  - discriminate Hx.
  - exact Hx.
Qed.

(** C10 (corrected form): with forcing constant zero the forced response is
    the linear decay over exact rationals.  In binary64 the two compare equal
    under [==] whenever the linear decay is a number, and when the linear
    decay is NaN the forced response is NaN too. *)
Theorem forced_response_zero_forcing :
  (forall y t k : Q, (forced_response y t k (n_of_Z 0) == linear_decay y t k)%Q) /\
  (forall y t k : float,
      PrimFloat.is_nan (linear_decay y t k) = false ->
      n_eqb (forced_response y t k (n_of_Z 0)) (linear_decay y t k) = true) /\
  (forall y t k : float,
      PrimFloat.is_nan (linear_decay y t k) = true ->
      PrimFloat.is_nan (forced_response y t k (n_of_Z 0)) = true).
Proof.
  split; [| split].
  - intros y t k. rewrite forced_response_Q, linear_decay_Q. cbn [n_of_Z Q_Number].
    change (inject_Z 0) with 0%Q. ring.
  - intros y t k Hnum. apply float_add_zero. exact Hnum.
  - intros y t k Hnan. apply nan_add_l. exact Hnan.
Qed.

Lemma forced_response_zero_forcing_witness :
  (forced_response 10 0 (1 # 2) (n_of_Z 0) == linear_decay 10 0 (1 # 2))%Q /\
  n_eqb (forced_response 10%float 0%float 0.5%float (n_of_Z 0))
        (linear_decay 10%float 0%float 0.5%float) = true /\
  PrimFloat.is_nan (forced_response 0%float 0%float infinity (n_of_Z 0)) = true.
Proof.
  split; [| split].
  - apply (proj1 forced_response_zero_forcing 10%Q 0%Q (1 # 2)%Q).
  - apply (proj1 (proj2 forced_response_zero_forcing) 10%float 0%float 0.5%float).
    reflexivity.
  - apply (proj2 (proj2 forced_response_zero_forcing) 0%float 0%float infinity).
    reflexivity.
Defined.

(** C10, counterexample in binary64: at [y = 0], [k = 0.5] the forced
    response with zero forcing is [0.0] while the linear decay is [-0.0], two
    different values; and at [y = 0] with an infinite [k] both are NaN, which
    does not compare equal to itself. *)
Lemma forced_response_zero_forcing_differs :
  forced_response 0%float 0%float 0.5%float (n_of_Z 0) = 0%float /\
  linear_decay 0%float 0%float 0.5%float = (- 0)%float /\
  PrimFloat.classify 0%float = PZero /\
  PrimFloat.classify (- 0)%float = NZero /\
  n_eqb (forced_response 0%float 0%float infinity (n_of_Z 0))
        (linear_decay 0%float 0%float infinity) = false.
Proof. repeat split; reflexivity. Qed.

(** ** Parameter binding *)

(** C3 (corrected form): binding a parameter set validates nothing.  Whatever
    the values, the assignments of lines 15-16 and 43-44 succeed and later
    reads return exactly what was bound; a coefficient that was never bound
    shows up only when a statement reads it, as [NameError]. *)
Theorem parameters_unvalidated {A : Type} `{Number A}
        (k y0 c y0_forced : A) (g : gmap string A) :
  (exists g1, parameters_I k y0 g = Ok g1 /\
              load_name "k" g1 = Ok k /\ load_name "y0" g1 = Ok y0) /\
  (exists g2, parameters_II c y0_forced g = Ok g2 /\
              load_name "c" g2 = Ok c /\ load_name "y0_forced" g2 = Ok y0_forced) /\
  load_name "k" (delete "k" g) = Raise NameError /\
  line_45 (delete "k" g) = Raise NameError.
Proof.
  split; [| split; [| split]].
  - eexists. split; [reflexivity |]. unfold load_name.
    rewrite lookup_insert_ne, !lookup_insert_eq by done. split; reflexivity.
  - eexists. split; [reflexivity |]. unfold load_name.
    rewrite lookup_insert_ne, !lookup_insert_eq by done. split; reflexivity.
  - unfold load_name. rewrite lookup_delete_eq. reflexivity.
  - unfold line_45, load_name. rewrite lookup_delete_eq.
    destruct (delete "k" g !! "c"); reflexivity.
Qed.

(** C3, counterexample to rejection of non-finite values: binding [k] to NaN,
    or [c] to an infinity, succeeds like any other binding, and NaN is what a
    later read of [k] returns. *)
Lemma parameters_accept_non_finite :
  (g ← parameters_I PrimFloat.nan 10%float ∅; load_name "k" g) = Ok PrimFloat.nan /\
  returned (parameters_II PrimFloat.infinity 0%float ∅) = true /\
  PrimFloat.is_nan PrimFloat.nan = true /\
  PrimFloat.is_infinity PrimFloat.infinity = true.
Proof. repeat split; reflexivity. Qed.

(** ** The time grid *)

Lemma length_arange {A : Type} `{Number A} (num : Z) :
  length (np.arange (A := A) num) = Z.to_nat num.
Proof. unfold np.arange. rewrite length_map, length_seq. reflexivity. Qed.

Lemma length_set_last {A : Type} `{Number A} (y : list A) (v : A) :
  length (np.set_last y v) = length y.
Proof. unfold np.set_last. apply length_insert. Qed.

(** C2 (corrected form): [np.linspace] fails only on a negative count, with
    [ValueError]; for every count [>= 0], whatever [start] and [stop] are, it
    returns exactly that many samples. *)
Theorem linspace_fails_only_on_negative_count {A : Type} `{Number A}
        (start stop : A) (num : Z) :
  ((num < 0)%Z /\ np.linspace start stop num = Raise ValueError) \/
  ((0 <= num)%Z /\
   exists y, np.linspace start stop num = Ok y /\ length y = Z.to_nat num).
Proof.
  unfold np.linspace. destruct (num <? 0)%Z eqn:Hneg.
  - left. split; [lia | reflexivity].
  - right. split; [lia |]. eexists. split; [reflexivity |].
    destruct (1 <? num)%Z; rewrite ?length_set_last, length_map;
      destruct (0 <? num - 1)%Z; [destruct (n_eqb _ _) | | destruct (n_eqb _ _) |];
      rewrite length_map; apply length_arange.
Qed.

(** C2, counterexample to failure on short or reversed requests:
    [np.linspace(0, 20, 1)] returns the one-sample grid [[0.0]], and a
    reversed or empty span returns a grid too. *)
Lemma linspace_accepts_short_and_reversed :
  np.linspace 0%float 20%float 1 = Ok [0%float] /\
  np.linspace 20%Q 0%Q 3 = Ok [(40 # 2)%Q; (20 # 2)%Q; 0%Q] /\
  np.linspace 5%float 5%float 2 = Ok [5%float; 5%float].
Proof. repeat split; reflexivity. Qed.

(** ** The integrator's driver *)

Section OdeintFacts.
Context {A : Type} `{Number A} {St Args W : Type}.
Variable lsoda : (St -> A -> St) -> W -> St -> A -> A -> St * W * bool.
Variable w0 : W.
Variable unwritten : nat -> St.

(** One row per remaining grid time, whether or not the solver gave up. *)
Lemma length_rows (func : St -> A -> St) (touts : list A) :
  forall (w : W) (y : St) (t : A) (running : bool) (row : nat),
    length (scipy.rows lsoda unwritten func w y t touts running row) = length touts.
Proof.
  induction touts as [| tout touts' IH]; intros w y t running row; [reflexivity |].
  cbn [scipy.rows]. destruct running.
  - destruct (lsoda func w y t tout) as [[y' w'] ok]. cbn [length].
    f_equal. apply IH.
  - cbn [length]. f_equal. apply IH.
Qed.

(** On a grid that passes the monotonicity test and has a first time,
    [odeint] returns; its first row is [y0] and it has a row per time. *)
Lemma odeint_returns (func : St -> A -> Args -> St) (y0 : St) (t : list A)
      (args : Args) :
  scipy.monotonic t = true ->
  (0 < length t)%nat ->
  exists ys, scipy.odeint lsoda w0 unwritten func y0 t args = Ok ys /\
             ys !! 0%nat = Some y0 /\
             length ys = length t.
Proof.
  intros Hmono Hlen. unfold scipy.odeint. rewrite Hmono. cbn [negb].
  destruct t as [| t0 touts]; [cbn in Hlen; lia |].
  eexists. split; [reflexivity |]. split; [reflexivity |].
  cbn [length]. f_equal. apply length_rows.
Qed.



End OdeintFacts.





(** ** Further facts about the script's own values *)

(** What [np.linspace(0, 20, 100)] and [np.linspace(0, 30, 100)] are in
    binary64: 100 samples, strictly increasing, from [0.0] to the end point,
    and acceptable to [odeint]. *)
Lemma script_grids_checked :
  match Script.t with
  | Ok t => length t = 100%nat /\ strictly_increasing t = true /\
            t !! 0%nat = Some 0%float /\ t !! 99%nat = Some 20%float /\
            scipy.monotonic t = true
  | Raise _ => False
  end /\
  match Script.t_long with
  | Ok t => length t = 100%nat /\ strictly_increasing t = true /\
            t !! 0%nat = Some 0%float /\ t !! 99%nat = Some 30%float /\
            scipy.monotonic t = true
  | Raise _ => False
  end.
Proof. vm_compute. repeat split; reflexivity. Qed.

(** X1: the Time Grid Generator on the script's two calls: exactly 100 strictly
    increasing binary64 samples, first [0.0], last [20.0] (resp. [30.0]). *)
Theorem script_time_grids :
  (exists t, Script.t = Ok t /\ length t = 100%nat /\ strictly_increasing t = true /\
             t !! 0%nat = Some 0%float /\ t !! 99%nat = Some 20%float) /\
  (exists t, Script.t_long = Ok t /\ length t = 100%nat /\
             strictly_increasing t = true /\
             t !! 0%nat = Some 0%float /\ t !! 99%nat = Some 30%float).
Proof.
  pose proof script_grids_checked as [H1 H2].
  destruct Script.t as [t |]; [| contradiction].
  destruct Script.t_long as [t' |]; [| contradiction].
  split; [exists t | exists t']; intuition.
Qed.

(** X2: the script's four integrations, for every solver: each returns one row
    per grid time and its first row is the initial state, so the linear-decay
    trajectory starts at [10.0] and the coupled one at [(5.0, 5.0)]. *)
Theorem script_trajectories_start_at_initial_state {W1 W2 : Type}
        (lsoda1 : (float -> float -> float) -> W1 -> float -> float -> float
                  -> float * W1 * bool)
        (lsoda2 : (float * float -> float -> float * float) -> W2 -> float * float
                  -> float -> float -> float * float * W2 * bool)
        (w1 : W1) (w2 : W2) (junk_linear junk_forced junk_sol : nat -> float)
        (junk_solution : nat -> float * float) :
  (exists ys, Script.y_linear lsoda1 w1 junk_linear = Ok ys /\
              ys !! 0%nat = Some 10%float /\ length ys = 100%nat) /\
  (exists ys, Script.y_forced lsoda1 w1 junk_forced = Ok ys /\
              ys !! 0%nat = Some 0%float /\ length ys = 100%nat) /\
  (forall y0 : float,
      exists ys, Script.y_sol lsoda1 w1 junk_sol y0 = Ok ys /\
                 ys !! 0%nat = Some y0 /\ length ys = 100%nat) /\
  (exists zs, Script.solution lsoda2 w2 junk_solution = Ok zs /\
              zs !! 0%nat = Some (5%float, 5%float) /\ length zs = 100%nat).
Proof.
  pose proof script_grids_checked as [H1 H2].
  unfold Script.y_linear, Script.y_forced, Script.y_sol, Script.solution.
  destruct Script.t as [t |]; [| contradiction].
  destruct Script.t_long as [t' |]; [| contradiction].
  destruct H1 as (L1 & _ & _ & _ & M1). destruct H2 as (L2 & _ & _ & _ & M2).
  cbn [mbind result_bind].
  split; [| split; [| split]]; intros;
    match goal with
    | |- exists ys, scipy.odeint ?l ?w ?j ?f ?y ?g ?a = Ok ys /\ _ =>
        destruct (odeint_returns l w j f y g a) as (ys & Hrun & Hfirst & Hrows);
        [assumption | lia | exists ys; rewrite Hrows; auto]
    end.
Qed.

(** X3: on the rationals a grid of two or more samples starts at [start] and ends
    exactly at [stop]. *)
Theorem linspace_endpoints (start stop : Q) (num : Z) :
  (2 <= num)%Z ->
  exists y first,
    np.linspace start stop num = Ok y /\
    y !! 0%nat = Some first /\ (first == start)%Q /\
    y !! (Z.to_nat num - 1)%nat = Some stop.
Proof.
  intros Hnum. unfold np.linspace.
  destruct (Z.ltb_spec num 0) as [? | _]; [lia |].
  destruct (Z.ltb_spec 1 num) as [_ | ?]; [| lia].
  destruct (Z.ltb_spec 0 (num - 1)) as [_ | ?]; [| lia].
  set (f := fun v : Q => _).
  match goal with |- context [map f ?l] => set (body := l) end.
  assert (Hlen : length (map f body) = Z.to_nat num).
  { subst body. rewrite length_map.
    destruct (n_eqb _ _); rewrite length_map; apply length_arange. }
  assert (Hfirst : exists v, map f body !! 0%nat = Some v /\ (v == start)%Q).
  { subst body f. unfold np.arange.
    destruct (Z.to_nat num) as [| n] eqn:En; [lia |].
    cbn [seq map]. destruct (n_eqb _ _); cbn [map lookup list_lookup];
      eexists; (split; [reflexivity |]); cbn [n_add n_mul n_div n_of_Z Q_Number];
      change (inject_Z (Z.of_nat 0)) with 0%Q; unfold Qdiv; ring. }
  destruct Hfirst as (v & Hv & Hvs).
  exists (np.set_last (map f body) stop), v. split; [reflexivity |].
  unfold np.set_last. rewrite Hlen. split; [| split].
  - rewrite list_lookup_insert_ne by lia. exact Hv.
  - exact Hvs.
  - replace (Nat.pred (Z.to_nat num)) with (Z.to_nat num - 1)%nat by lia.
    apply list_lookup_insert_eq. lia.
Qed.

Lemma linspace_endpoints_witness :
  exists y first,
    np.linspace 0%Q 20%Q 100 = Ok y /\
    y !! 0%nat = Some first /\ (first == 0)%Q /\
    y !! (Z.to_nat 100 - 1)%nat = Some 20%Q.
Proof. apply (linspace_endpoints 0 20 100). lia. Defined.

(** ** Globals as the link between the script's blocks *)

(** X5: the blocks share their globals.  Running lines 15-16, then 43-44,
    then line 45 with a rate [k] that does not compare equal to zero binds
    [equilibrium] to [c / k], where [k] is the decay rate bound for Model I,
    and leaves the four parameters as they were bound. *)
Theorem model_II_equilibrium_uses_model_I_rate {A : Type} `{Number A}
        (k y0 c y0_forced : A) (g : gmap string A) :
  n_eqb k (n_of_Z 0) = false ->
  exists g',
    (g1 ← parameters_I k y0 g; g2 ← parameters_II c y0_forced g1; line_45 g2) = Ok g' /\
    load_name "equilibrium" g' = Ok (n_div c k) /\
    load_name "k" g' = Ok k /\ load_name "y0" g' = Ok y0 /\
    load_name "c" g' = Ok c /\ load_name "y0_forced" g' = Ok y0_forced.
Proof.
  intros Hk. unfold parameters_I, parameters_II, line_45, assign. cbn.
  unfold load_name.
  rewrite (lookup_insert_ne _ "y0_forced" "c"), lookup_insert_eq by done. cbn.
  rewrite !(lookup_insert_ne _ _ "k"), lookup_insert_eq by done. cbn.
  unfold equilibrium, truediv. rewrite Hk. cbn.
  eexists. split; [reflexivity |]. unfold load_name.
  repeat split; simplify_map_eq; reflexivity.
Qed.

Lemma model_II_equilibrium_uses_model_I_rate_witness :
  exists g',
    (g1 ← parameters_I 0.5%float 10%float ∅;
     g2 ← parameters_II 2%float 0%float g1; line_45 g2) = Ok g' /\
    load_name "equilibrium" g' = Ok (n_div 2%float 0.5%float) /\
    load_name "k" g' = Ok 0.5%float /\ load_name "y0" g' = Ok 10%float /\
    load_name "c" g' = Ok 2%float /\ load_name "y0_forced" g' = Ok 0%float.
Proof.
  apply (model_II_equilibrium_uses_model_I_rate 0.5%float 10%float 2%float 0%float ∅).
  reflexivity.
Defined.

(** ** The time grid over the rationals *)

Lemma list_lookup_map {T U : Type} (f : T -> U) (l : list T) (i : nat) :
  map f l !! i = f <$> (l !! i).
Proof.
  revert i. induction l as [| x l IH]; intros [| i]; cbn; try reflexivity.
  apply IH.
Qed.

Lemma lookup_arange_Q (num : Z) (i : nat) :
  (i < Z.to_nat num)%nat ->
  np.arange (A := Q) num !! i = Some (inject_Z (Z.of_nat i)).
Proof.
  intros Hi. unfold np.arange.
  rewrite list_lookup_map, lookup_seq_lt by exact Hi. reflexivity.
Qed.

(** Every sample of a rational grid of two or more points, in closed form. *)
Lemma linspace_Q_samples (start stop : Q) (num : Z) :
  (2 <= num)%Z ->
  exists y,
    np.linspace start stop num = Ok y /\
    length y = Z.to_nat num /\
    forall i : nat,
      (i < Z.to_nat num)%nat ->
      exists v, y !! i = Some v /\
                (v == start + inject_Z (Z.of_nat i)
                              * ((stop - start) / inject_Z (num - 1)))%Q.
Proof.
  intros Hnum. unfold np.linspace.
  destruct (Z.ltb_spec num 0) as [? | _]; [lia |].
  destruct (Z.ltb_spec 1 num) as [_ | ?]; [| lia].
  destruct (Z.ltb_spec 0 (num - 1)) as [_ | ?]; [| lia].
  cbn [n_sub n_div n_mul n_add n_eqb n_of_Z Q_Number].
  assert (Hd : ~ (inject_Z (num - 1) == 0)%Q).
  { unfold Qeq. cbn. lia. }
  set (step := ((stop - start) / inject_Z (num - 1))%Q).
  match goal with
  | |- context [map ?f (if ?c then ?a else ?b)] =>
      set (body := if c then a else b); set (shift := f)
  end.
  assert (Hbody : length body = Z.to_nat num /\
                  forall i : nat, (i < Z.to_nat num)%nat ->
                    exists u, body !! i = Some u /\
                              (u == inject_Z (Z.of_nat i) * step)%Q).
  { subst body. destruct (Qeq_bool step (inject_Z 0));
      (split; [rewrite length_map; apply (length_arange (A := Q)) |]);
      intros i Hi; rewrite list_lookup_map, (lookup_arange_Q num i Hi); cbn;
      eexists; (split; [reflexivity |]); subst step; field; exact Hd. }
  destruct Hbody as [Hlen Hsamples].
  eexists. split; [reflexivity |]. split.
  - rewrite length_set_last, length_map. exact Hlen.
  - intros i Hi. unfold np.set_last. rewrite length_map, Hlen.
    destruct (decide (i = Nat.pred (Z.to_nat num))) as [-> | Hne].
    + exists stop. split.
      * apply list_lookup_insert_eq. rewrite length_map, Hlen. lia.
      * replace (Z.of_nat (Nat.pred (Z.to_nat num))) with (num - 1)%Z by lia.
        subst step. field. exact Hd.
    + rewrite list_lookup_insert_ne by (intros E; apply Hne; symmetry; exact E).
      destruct (Hsamples i Hi) as (u & Hu & Hus).
      exists (u + start)%Q. split.
      * rewrite list_lookup_map, Hu. reflexivity.
      * rewrite Hus. ring.
Qed.

(** X6: over the rationals a grid of two or more points is evenly spaced:
    sample [i] equals [start + i * (stop - start) / (num - 1)]. *)
Theorem linspace_evenly_spaced (start stop : Q) (num : Z) (i : nat) :
  (2 <= num)%Z ->
  (i < Z.to_nat num)%nat ->
  exists y v,
    np.linspace start stop num = Ok y /\
    y !! i = Some v /\
    (v == start + inject_Z (Z.of_nat i) * ((stop - start) / inject_Z (num - 1)))%Q.
Proof.
  intros Hnum Hi.
  destruct (linspace_Q_samples start stop num Hnum) as (y & Hy & _ & Hsamples).
  destruct (Hsamples i Hi) as (v & Hv & Hvs).
  exists y, v. auto.
Qed.

Lemma linspace_evenly_spaced_witness :
  exists y v,
    np.linspace 0%Q 20%Q 5 = Ok y /\
    y !! 3%nat = Some v /\
    (v == 0 + inject_Z (Z.of_nat 3) * ((20 - 0) / inject_Z (5 - 1)))%Q.
Proof. apply (linspace_evenly_spaced 0 20 5 3); [lia | cbn; lia]. Defined.

Lemma lookup_diff {A : Type} `{Number A} (t : list A) (i : nat) (a b : A) :
  t !! i = Some a -> t !! S i = Some b -> scipy.diff t !! i = Some (n_sub b a).
Proof.
  intros Ha Hb. unfold scipy.diff.
  apply lookup_zip_with_Some. exists a, b.
  rewrite lookup_tail. auto.
Qed.

Lemma forallb_diff {A : Type} `{Number A} (p : A -> bool) (t : list A) :
  (forall (i : nat) (a b : A),
      t !! i = Some a -> t !! S i = Some b -> p (n_sub b a) = true) ->
  forallb p (scipy.diff t) = true.
Proof.
  intros Hp. apply forallb_forall. intros d Hd.
  apply list_elem_of_In, list_elem_of_lookup in Hd. destruct Hd as [i Hi].
  unfold scipy.diff in Hi. apply lookup_zip_with_Some in Hi.
  destruct Hi as (a & b & -> & Ha & Hb). rewrite lookup_tail in Hb.
  exact (Hp i a b Ha Hb).
Qed.

Lemma strictly_increasing_Q (t : list Q) :
  (forall (i : nat) (a b : Q), t !! i = Some a -> t !! S i = Some b -> (a < b)%Q) ->
  strictly_increasing t = true /\ nondecreasing t = true.
Proof.
  induction t as [| a t' IH]; intros Hlt; [split; reflexivity |].
  destruct t' as [| b t'']; [split; reflexivity |].
  assert (Hab : (a < b)%Q) by (apply (Hlt 0%nat); reflexivity).
  destruct IH as [IH1 IH2]; [intros i x y Hx Hy; apply (Hlt (S i)); assumption |].
  change (strictly_increasing (a :: b :: t''))
    with (Qle_bool a b && negb (Qle_bool b a) && strictly_increasing (b :: t'')).
  change (nondecreasing (a :: b :: t''))
    with (Qle_bool a b && nondecreasing (b :: t'')).
  rewrite IH1, IH2.
  assert (H1 : Qle_bool a b = true) by (apply Qle_bool_iff; lra).
  assert (H2 : Qle_bool b a = false).
  { destruct (Qle_bool b a) eqn:E; [| reflexivity].
    apply Qle_bool_iff in E. lra. }
  rewrite H1, H2. split; reflexivity.
Qed.

(** Consecutive samples of a rational grid differ by the step. *)
Lemma linspace_Q_consecutive (start stop : Q) (num : Z) :
  (2 <= num)%Z ->
  exists y,
    np.linspace start stop num = Ok y /\
    length y = Z.to_nat num /\
    forall (i : nat) (a b : Q),
      y !! i = Some a -> y !! S i = Some b ->
      (b - a == (stop - start) / inject_Z (num - 1))%Q.
Proof.
  intros Hnum.
  destruct (linspace_Q_samples start stop num Hnum) as (y & Hy & Hlen & Hsamples).
  exists y. split; [exact Hy |]. split; [exact Hlen |].
  intros i a b Ha Hb.
  assert (Hi : (S i < Z.to_nat num)%nat).
  { rewrite <- Hlen. apply lookup_lt_Some in Hb. exact Hb. }
  destruct (Hsamples i) as (a' & Ha' & Has); [lia |].
  destruct (Hsamples (S i) Hi) as (b' & Hb' & Hbs).
  rewrite Ha in Ha'. rewrite Hb in Hb'.
  injection Ha' as <-. injection Hb' as <-.
  rewrite Has, Hbs. rewrite Nat2Z.inj_succ. unfold Z.succ.
  rewrite inject_Z_plus. change (inject_Z 1) with 1%Q. ring.
Qed.

Lemma inject_Z_pred_pos (num : Z) : (2 <= num)%Z -> (0 < inject_Z (num - 1))%Q.
Proof. intros Hnum. unfold Qlt. cbn. lia. Qed.

(** X7: over the rationals, a grid of two or more points from [start] to a
    larger [stop] is strictly increasing, hence a valid time grid. *)
Theorem linspace_strictly_increasing (start stop : Q) (num : Z) :
  (start < stop)%Q ->
  (2 <= num)%Z ->
  exists y,
    np.linspace start stop num = Ok y /\
    strictly_increasing y = true /\
    valid_time_grid y = true.
Proof.
  intros Hspan Hnum.
  destruct (linspace_Q_consecutive start stop num Hnum) as (y & Hy & Hlen & Hstep).
  pose proof (inject_Z_pred_pos num Hnum) as Hpos.
  assert (Hh : (0 < (stop - start) / inject_Z (num - 1))%Q).
  { apply Qlt_shift_div_l; [exact Hpos | lra]. }
  destruct (strictly_increasing_Q y) as [Hinc Hnd].
  { intros i a b Ha Hb. pose proof (Hstep i a b Ha Hb) as E. lra. }
  exists y. split; [exact Hy |]. split; [exact Hinc |].
  unfold valid_time_grid. rewrite Hnd, andb_true_r.
  apply Nat.leb_le. lia.
Qed.

Lemma linspace_strictly_increasing_witness :
  exists y,
    np.linspace 0%Q 20%Q 100 = Ok y /\
    strictly_increasing y = true /\
    valid_time_grid y = true.
Proof. apply (linspace_strictly_increasing 0 20 100); [reflexivity | lia]. Defined.

(** A rational grid from [np.linspace] passes [odeint]'s monotonicity test,
    whichever way the span runs. *)
Lemma linspace_Q_monotonic (start stop : Q) (num : Z) :
  (1 <= num)%Z ->
  exists t,
    np.linspace start stop num = Ok t /\
    length t = Z.to_nat num /\
    scipy.monotonic t = true.
Proof.
  intros Hnum. destruct (Z.eq_dec num 1%Z) as [-> | Hne].
  - eexists. repeat split; reflexivity.
  - assert (H2 : (2 <= num)%Z) by lia.
    destruct (linspace_Q_consecutive start stop num H2) as (y & Hy & Hlen & Hstep).
    pose proof (inject_Z_pred_pos num H2) as Hpos.
    exists y. split; [exact Hy |]. split; [exact Hlen |].
    unfold scipy.monotonic. cbn [n_leb n_of_Z Q_Number]. change (inject_Z 0) with 0%Q.
    apply orb_true_iff. destruct (Qlt_le_dec stop start) as [Hrev | Hfwd].
    + right. apply forallb_diff. intros i a b Ha Hb. apply Qle_bool_iff.
      cbn [n_sub Q_Number]. rewrite (Hstep i a b Ha Hb).
      apply Qle_shift_div_r; [exact Hpos | lra].
    + left. apply forallb_diff. intros i a b Ha Hb. apply Qle_bool_iff.
      cbn [n_sub Q_Number]. rewrite (Hstep i a b Ha Hb).
      apply Qle_shift_div_l; [exact Hpos | lra].
Qed.

(** X8: the two library calls compose.  For every span, in either direction,
    and every count of at least one, the rational grid [np.linspace] returns is
    accepted by [odeint], which gives back one row per sample, the first being
    the initial state. *)
Theorem linspace_grid_accepted_by_odeint {St Args W : Type}
        (lsoda : (St -> Q -> St) -> W -> St -> Q -> Q -> St * W * bool)
        (w0 : W) (unwritten : nat -> St)
        (func : St -> Q -> Args -> St) (y0 : St) (args : Args)
        (start stop : Q) (num : Z) :
  (1 <= num)%Z ->
  exists t ys,
    np.linspace start stop num = Ok t /\
    scipy.odeint lsoda w0 unwritten func y0 t args = Ok ys /\
    length ys = Z.to_nat num /\
    ys !! 0%nat = Some y0.
Proof.
  intros Hnum.
  destruct (linspace_Q_monotonic start stop num Hnum) as (t & Ht & Hlen & Hmono).
  destruct (odeint_returns lsoda w0 unwritten func y0 t args Hmono)
    as (ys & Hrun & Hfirst & Hrows); [lia |].
  exists t, ys. rewrite Hrows, Hlen. auto.
Qed.

Lemma linspace_grid_accepted_by_odeint_witness :
  exists t ys,
    np.linspace 30%Q 0%Q 4 = Ok t /\
    scipy.odeint euler_call tt (fun _ => 0%Q) (fun y t k => linear_decay y t k)
                 10%Q t (1 # 2)%Q
    = Ok ys /\
    length ys = Z.to_nat 4 /\
    ys !! 0%nat = Some 10%Q.
Proof.
  apply (linspace_grid_accepted_by_odeint
           euler_call tt (fun _ => 0%Q) (fun y t k => linear_decay y t k)
           10%Q (1 # 2)%Q 30 0 4).
  lia.
Defined.

(** ** More on the integrator's driver *)

Lemma forallb_lookup_false {T : Type} (p : T -> bool) (l : list T) (i : nat) (x : T) :
  l !! i = Some x -> p x = false -> forallb p l = false.
Proof.
  intros Hx Hp. destruct (forallb p l) eqn:E; [| reflexivity].
  rewrite forallb_forall in E.
  rewrite <- Hp. symmetry. apply E.
  apply list_elem_of_In. eapply list_elem_of_lookup_2. exact Hx.
Qed.

(** X9: a rational grid that rises somewhere and falls somewhere else is
    refused: [odeint] raises [ValueError] before any solver call. *)
Theorem odeint_rejects_zigzag_grid {St Args W : Type}
        (lsoda : (St -> Q -> St) -> W -> St -> Q -> Q -> St * W * bool)
        (w0 : W) (unwritten : nat -> St)
        (func : St -> Q -> Args -> St) (y0 : St) (args : Args)
        (t : list Q) (i j : nat) (a b c d : Q) :
  t !! i = Some a -> t !! S i = Some b -> (a < b)%Q ->
  t !! j = Some c -> t !! S j = Some d -> (d < c)%Q ->
  scipy.odeint lsoda w0 unwritten func y0 t args = Raise ValueError.
Proof.
  intros Ha Hb Hab Hc Hd Hdc.
  assert (Hmono : scipy.monotonic t = false).
  { unfold scipy.monotonic. cbn [n_leb n_of_Z Q_Number]. change (inject_Z 0) with 0%Q.
    apply orb_false_iff. split.
    - apply (forallb_lookup_false _ _ j (d - c)%Q); [exact (lookup_diff t j c d Hc Hd) |].
      destruct (Qle_bool 0 (d - c)) eqn:E; [| reflexivity].
      apply Qle_bool_iff in E. lra.
    - apply (forallb_lookup_false _ _ i (b - a)%Q); [exact (lookup_diff t i a b Ha Hb) |].
      destruct (Qle_bool (b - a) 0) eqn:E; [| reflexivity].
      apply Qle_bool_iff in E. lra. }
  unfold scipy.odeint. rewrite Hmono. reflexivity.
Qed.

Lemma odeint_rejects_zigzag_grid_witness :
  scipy.odeint euler_call tt (fun _ => 0%Q) (fun y t k => linear_decay y t k) 10%Q
               [0%Q; 2%Q; 1%Q] (1 # 2)%Q = Raise ValueError.
Proof.
  apply (odeint_rejects_zigzag_grid
           euler_call tt (fun _ => 0%Q) (fun y t k => linear_decay y t k) 10%Q (1 # 2)%Q
           [0%Q; 2%Q; 1%Q] 0 1 0%Q 2%Q 2%Q 1%Q); reflexivity.
Defined.



Section OdeintPrefix.
Context {A : Type} `{Number A} {St Args W : Type}.
Variable lsoda : (St -> A -> St) -> W -> St -> A -> A -> St * W * bool.
Variable w0 : W.

(** Every grid that passes the monotonicity test is accepted, the empty one
    included; there is a row per time, and the first row, when there is one,
    is the initial state. *)
Lemma odeint_accepts (unwritten : nat -> St) (func : St -> A -> Args -> St)
      (y0 : St) (t : list A) (args : Args) :
  scipy.monotonic t = true ->
  exists ys, scipy.odeint lsoda w0 unwritten func y0 t args = Ok ys /\
             length ys = length t /\
             ((0 < length t)%nat -> ys !! 0%nat = Some y0).
Proof.
  intros Hmono. destruct t as [| t0 touts].
  - exists []. unfold scipy.odeint. rewrite Hmono. cbn. repeat split. lia.
  - destruct (odeint_returns lsoda w0 unwritten func y0 (t0 :: touts) args Hmono)
      as (ys & Hrun & Hfirst & Hrows); [cbn; lia |].
    exists ys. auto.
Qed.



End OdeintPrefix.



(** ** The sweep over initial states and the column views *)

Section SweepFacts.
Context {A : Type} `{Number A} {W : Type}.
Variable lsoda : (A -> A -> A) -> W -> A -> A -> A -> A * W * bool.
Variable w0 : W.
Variable unwritten : nat -> nat -> A.

Lemma loop_body_returns (t_long : list A) (k_nonlin a : A) (i : nat)
      (g : gmap string (value A)) (plotted : list (list A)) (y0 : A) :
  scipy.monotonic t_long = true ->
  exists curve,
    loop_body lsoda w0 unwritten t_long k_nonlin a i (g, plotted) y0
    = Ok (<["y_sol" := Arr curve]> (<["y0" := Num y0]> g), plotted ++ [curve]) /\
    length curve = length t_long /\
    ((0 < length t_long)%nat -> curve !! 0%nat = Some y0).
Proof.
  intros Hmono. unfold loop_body. cbn [fst snd].
  destruct (odeint_accepts lsoda w0 (unwritten i)
              (fun y t '(k, a) => nonlinear_regulation y t k a)
              y0 t_long (k_nonlin, a) Hmono) as (curve & Hrun & Hrows & Hfirst).
  exists curve. cbn. rewrite Hrun. cbn. auto.
Qed.

Lemma for_y0_in_returns (t_long : list A) (k_nonlin a : A) (y0_values : list A) :
  scipy.monotonic t_long = true ->
  forall (i : nat) (g : gmap string (value A)) (plotted : list (list A)),
  exists g' curves,
    for_y0_in lsoda w0 unwritten y0_values t_long k_nonlin a i (g, plotted)
    = Ok (g', plotted ++ curves) /\
    length curves = length y0_values /\
    (forall (j : nat) (y0 : A),
        y0_values !! j = Some y0 ->
        exists curve, curves !! j = Some curve /\
                      length curve = length t_long /\
                      ((0 < length t_long)%nat -> curve !! 0%nat = Some y0)) /\
    load_name "y0" g'
    = match last y0_values with Some v => Ok (Num v) | None => load_name "y0" g end /\
    load_name "y_sol" g'
    = match last curves with Some c => Ok (Arr c) | None => load_name "y_sol" g end /\
    (forall other : string,
        other <> "y0" -> other <> "y_sol" -> load_name other g' = load_name other g).
Proof.
  intros Hmono.
  induction y0_values as [| y0 rest IH]; intros i g plotted.
  - exists g, []. rewrite app_nil_r. repeat split; auto.
    intros j y0 Hj. discriminate Hj.
  - destruct (loop_body_returns t_long k_nonlin a i g plotted y0 Hmono)
      as (curve & Hbody & Hrows & Hfirst).
    destruct (IH (S i) (<["y_sol" := Arr curve]> (<["y0" := Num y0]> g))
                 (plotted ++ [curve]))
      as (g' & curves & Hrun & Hcount & Heach & Hy0 & Hysol & Hother).
    exists g', (curve :: curves).
    cbn [for_y0_in]. rewrite Hbody. cbn. rewrite Hrun.
    split; [rewrite <- app_assoc; reflexivity |].
    split; [cbn; rewrite Hcount; reflexivity |].
    split; [| split; [| split]].
    + intros [| j] y Hj.
      * injection Hj as <-. exists curve. auto.
      * apply (Heach j y Hj).
    + rewrite Hy0, last_cons. destruct (last rest); [reflexivity |].
      unfold load_name. rewrite lookup_insert_ne, lookup_insert_eq by done.
      reflexivity.
    + rewrite Hysol, last_cons. destruct (last curves); [reflexivity |].
      unfold load_name. rewrite lookup_insert_eq. reflexivity.
    + intros other Hne1 Hne2. rewrite (Hother other Hne1 Hne2). unfold load_name.
      rewrite !lookup_insert_ne by (intros E; subst other; contradiction).
      reflexivity.
Qed.

End SweepFacts.

(** X11: on a grid [odeint] accepts, the loop of lines 79-81 plots one curve
    per entry of [y0_values], in order; curve [j] has a row per grid time and,
    when the grid is not empty, starts at [y0_values[j]].  The loop rebinds
    two globals: after a non-empty sweep [y0] holds the last initial state
    and [y_sol] the last curve; no other global is touched. *)
Theorem sweep_plots_one_curve_per_initial_state {A : Type} `{Number A} {W : Type}
        (lsoda : (A -> A -> A) -> W -> A -> A -> A -> A * W * bool)
        (w0 : W) (unwritten : nat -> nat -> A)
        (y0_values t_long : list A) (k_nonlin a : A) (i : nat)
        (g : gmap string (value A)) (plotted : list (list A)) :
  scipy.monotonic t_long = true ->
  exists g' curves,
    for_y0_in lsoda w0 unwritten y0_values t_long k_nonlin a i (g, plotted)
    = Ok (g', plotted ++ curves) /\
    length curves = length y0_values /\
    (forall (j : nat) (y0 : A),
        y0_values !! j = Some y0 ->
        exists curve, curves !! j = Some curve /\
                      length curve = length t_long /\
                      ((0 < length t_long)%nat -> curve !! 0%nat = Some y0)) /\
    load_name "y0" g'
    = match last y0_values with Some v => Ok (Num v) | None => load_name "y0" g end /\
    load_name "y_sol" g'
    = match last curves with Some c => Ok (Arr c) | None => load_name "y_sol" g end /\
    (forall other : string,
        other <> "y0" -> other <> "y_sol" -> load_name other g' = load_name other g).
Proof.
  intros Hmono.
  exact (for_y0_in_returns lsoda w0 unwritten t_long k_nonlin a y0_values
                           Hmono i g plotted).
Qed.

Lemma sweep_plots_one_curve_per_initial_state_witness :
  exists g' curves,
    for_y0_in euler_call tt (fun _ _ => 0%Q)
              [(1 # 10)%Q; (1 # 2)%Q; (12 # 10)%Q] [0%Q; 1%Q; 2%Q]
              (2 # 10)%Q (8 # 10)%Q 0 (<["y0" := Num 10%Q]> ∅, [])
    = Ok (g', [] ++ curves) /\
    length curves = length [(1 # 10)%Q; (1 # 2)%Q; (12 # 10)%Q] /\
    (forall (j : nat) (y0 : Q),
        [(1 # 10)%Q; (1 # 2)%Q; (12 # 10)%Q] !! j = Some y0 ->
        exists curve, curves !! j = Some curve /\
                      length curve = length [0%Q; 1%Q; 2%Q] /\
                      ((0 < length [0%Q; 1%Q; 2%Q])%nat -> curve !! 0%nat = Some y0)) /\
    load_name "y0" g'
    = match last [(1 # 10)%Q; (1 # 2)%Q; (12 # 10)%Q] with
      | Some v => Ok (Num v)
      | None => load_name "y0" (<["y0" := Num 10%Q]> ∅)
      end /\
    load_name "y_sol" g'
    = match last curves with
      | Some c => Ok (Arr c)
      | None => load_name "y_sol" (<["y0" := Num 10%Q]> ∅)
      end /\
    (forall other : string,
        other <> "y0" -> other <> "y_sol" ->
        load_name other g' = load_name other (<["y0" := Num 10%Q]> ∅)).
Proof.
  apply (sweep_plots_one_curve_per_initial_state
           euler_call tt (fun _ _ => 0%Q)
           [(1 # 10)%Q; (1 # 2)%Q; (12 # 10)%Q] [0%Q; 1%Q; 2%Q]
           (2 # 10)%Q (8 # 10)%Q 0 (<["y0" := Num 10%Q]> ∅) []).
  reflexivity.
Defined.

(** X12: a grid [odeint] refuses stops the sweep at its first iteration with
    [ValueError], and nothing is plotted; with no initial state to sweep the
    loop does nothing and the grid is never looked at. *)
Theorem sweep_on_refused_grid {A : Type} `{Number A} {W : Type}
        (lsoda : (A -> A -> A) -> W -> A -> A -> A -> A * W * bool)
        (w0 : W) (unwritten : nat -> nat -> A)
        (y0 : A) (rest t_long : list A) (k_nonlin a : A) (i : nat)
        (st : gmap string (value A) * list (list A)) :
  scipy.monotonic t_long = false ->
  for_y0_in lsoda w0 unwritten (y0 :: rest) t_long k_nonlin a i st
  = Raise ValueError /\
  for_y0_in lsoda w0 unwritten [] t_long k_nonlin a i st = Ok st.
Proof.
  intros Hmono. split; [| reflexivity].
  cbn [for_y0_in]. unfold loop_body, scipy.odeint. rewrite Hmono. reflexivity.
Qed.

Lemma sweep_on_refused_grid_witness :
  for_y0_in euler_call tt (fun _ _ => 0%Q) ((1 # 10)%Q :: [(1 # 2)%Q]) [0%Q; 2%Q; 1%Q]
            (2 # 10)%Q (8 # 10)%Q 0 (∅, []) = Raise ValueError /\
  for_y0_in euler_call tt (fun _ _ => 0%Q) [] [0%Q; 2%Q; 1%Q]
            (2 # 10)%Q (8 # 10)%Q 0 (∅, []) = Ok (∅, []).
Proof.
  apply (sweep_on_refused_grid euler_call tt (fun _ _ => 0%Q) (1 # 10)%Q [(1 # 2)%Q]
                               [0%Q; 2%Q; 1%Q] (2 # 10)%Q (8 # 10)%Q 0 (∅, [])).
  reflexivity.
Defined.

(** X13: the two column views of the coupled solution.  On every grid
    [odeint] accepts, the empty one included, [x_sol] and [y_sol] each have
    one entry per grid time and together hold exactly the solution: zipping
    them gives it back.  When the grid is not empty they start at the two
    components of the initial state. *)
Theorem coupled_solution_columns {A : Type} `{Number A} {W : Type}
        (lsoda : (A * A -> A -> A * A) -> W -> A * A -> A -> A -> A * A * W * bool)
        (w0 : W) (unwritten : nat -> A * A)
        (x0 y0 : A) (t_long : list A) (a b c : A) :
  scipy.monotonic t_long = true ->
  exists solution,
    scipy.odeint lsoda w0 unwritten (fun z t '(a, b, c) => coupled_system z t a b c)
                 (x0, y0) t_long (a, b, c) = Ok solution /\
    length (x_sol solution) = length t_long /\
    length (y_sol solution) = length t_long /\
    zip (x_sol solution) (y_sol solution) = solution /\
    ((0 < length t_long)%nat ->
     x_sol solution !! 0%nat = Some x0 /\ y_sol solution !! 0%nat = Some y0).
Proof.
  intros Hmono.
  destruct (odeint_accepts lsoda w0 unwritten
              (fun z t '(a, b, c) => coupled_system z t a b c)
              (x0, y0) t_long (a, b, c) Hmono) as (sol & Hrun & Hrows & Hfirst).
  exists sol. split; [exact Hrun |]. unfold x_sol, y_sol.
  rewrite !length_map, !list_lookup_map, Hrows.
  split; [reflexivity |]. split; [reflexivity |]. split.
  - clear. induction sol as [| [x y] sol IH]; [reflexivity |].
    cbn. f_equal. exact IH.
  - intros Hlen. rewrite (Hfirst Hlen). split; reflexivity.
Qed.

Lemma coupled_solution_columns_witness :
  exists solution,
    scipy.odeint (fun func (w : unit) z t tout => (z, tt, true)) tt
                 (fun _ => (0%Q, 0%Q))
                 (fun z t '(a, b, c) => coupled_system z t a b c)
                 (5%Q, 5%Q) [0%Q; 1%Q; 2%Q] ((1 # 2)%Q, (1 # 2)%Q, (1 # 5)%Q)
    = Ok solution /\
    length (x_sol solution) = length [0%Q; 1%Q; 2%Q] /\
    length (y_sol solution) = length [0%Q; 1%Q; 2%Q] /\
    zip (x_sol solution) (y_sol solution) = solution /\
    ((0 < length [0%Q; 1%Q; 2%Q])%nat ->
     x_sol solution !! 0%nat = Some 5%Q /\ y_sol solution !! 0%nat = Some 5%Q).
Proof.
  apply (coupled_solution_columns
           (fun func (w : unit) z t tout => (z, tt, true)) tt (fun _ => (0%Q, 0%Q))
           5%Q 5%Q [0%Q; 1%Q; 2%Q] (1 # 2)%Q (1 # 2)%Q (1 # 5)%Q).
  reflexivity.
Defined.

(** ** Which way the models push *)

Section Direction.
Local Open Scope Q_scope.

(** X14: with a positive decay rate the linear decay pushes the state towards
    zero: the derivative is negative exactly above zero, positive exactly
    below it, and zero exactly at zero. *)
Theorem linear_decay_restoring (y t k : Q) :
  0 < k ->
  (0 < y <-> linear_decay y t k < 0) /\
  (y < 0 <-> 0 < linear_decay y t k) /\
  (y == 0 <-> linear_decay y t k == 0).
Proof.
  intros Hk. rewrite linear_decay_Q.
  assert (Hpos : 0 < y -> 0 < k * y) by (intros; apply Qmult_lt_0_compat; assumption).
  assert (Hneg : y < 0 -> 0 < k * - y)
    by (intros; apply Qmult_lt_0_compat; [assumption | lra]).
  assert (Hmul : k * - y == - (k * y)) by ring.
  assert (Hopp : - k * y == - (k * y)) by ring.
  rewrite Hopp.
  destruct (Q_dec y 0) as [[Hy | Hy] | Hy].
  - specialize (Hneg Hy). repeat split; intros; lra.
  - specialize (Hpos Hy). repeat split; intros; lra.
  - assert (Hz : k * y == 0) by (rewrite Hy; ring).
    repeat split; intros; lra.
Qed.

Lemma linear_decay_restoring_witness :
  (0 < 10 <-> linear_decay 10 0 (1 # 2) < 0) /\
  (10 < 0 <-> 0 < linear_decay 10 0 (1 # 2)) /\
  (10 == 0 <-> linear_decay 10 0 (1 # 2) == 0).
Proof. apply (linear_decay_restoring 10 0 (1 # 2)). reflexivity. Defined.

(** X15: with a positive decay rate the forced response pushes the state
    towards [c / k]: the derivative is positive exactly below the equilibrium
    and negative exactly above it. *)
Theorem forced_response_restoring (y t k c : Q) :
  0 < k ->
  (y < c / k <-> 0 < forced_response y t k c) /\
  (c / k < y <-> forced_response y t k c < 0).
Proof.
  intros Hk. rewrite forced_response_Q.
  assert (Hc : - k * y + c == k * (c / k - y)) by (field; lra).
  rewrite Hc. set (d := c / k - y).
  assert (Hd1 : y < c / k <-> 0 < d) by (subst d; split; intros; lra).
  assert (Hd2 : c / k < y <-> d < 0) by (subst d; split; intros; lra).
  rewrite Hd1, Hd2. clearbody d. clear Hd1 Hd2 Hc.
  assert (Hpos : 0 < d -> 0 < k * d) by (intros; apply Qmult_lt_0_compat; assumption).
  assert (Hneg : d < 0 -> 0 < k * - d)
    by (intros; apply Qmult_lt_0_compat; [assumption | lra]).
  assert (Hmul : k * - d == - (k * d)) by ring.
  destruct (Q_dec d 0) as [[Hy | Hy] | Hy].
  - specialize (Hneg Hy). repeat split; intros; lra.
  - specialize (Hpos Hy). repeat split; intros; lra.
  - assert (Hz : k * d == 0) by (rewrite Hy; ring).
    repeat split; intros; lra.
Qed.

Lemma forced_response_restoring_witness :
  (0 < 2 / (1 # 2) <-> 0 < forced_response 0 0 (1 # 2) 2) /\
  (2 / (1 # 2) < 0 <-> forced_response 0 0 (1 # 2) 2 < 0).
Proof. apply (forced_response_restoring 0 0 (1 # 2) 2). reflexivity. Defined.

(** X16: why [1 - k/a] is the stable equilibrium.  With [a > 0] and a
    positive state, the nonlinear model's derivative is positive exactly
    below [1 - k/a] and negative exactly above it. *)
Theorem nonlinear_regulation_restoring (y t k a : Q) :
  0 < a ->
  0 < y ->
  (y < 1 - k / a <-> 0 < nonlinear_regulation y t k a) /\
  (1 - k / a < y <-> nonlinear_regulation y t k a < 0).
Proof.
  intros Ha Hy. rewrite nonlinear_regulation_Q.
  assert (Hc : - k * y + a * y * (1 - y) == a * y * (1 - k / a - y)) by (field; lra).
  rewrite Hc. set (d := 1 - k / a - y).
  assert (Hd1 : y < 1 - k / a <-> 0 < d) by (subst d; split; intros; lra).
  assert (Hd2 : 1 - k / a < y <-> d < 0) by (subst d; split; intros; lra).
  rewrite Hd1, Hd2. clearbody d. clear Hd1 Hd2 Hc.
  assert (Hay : 0 < a * y) by (apply Qmult_lt_0_compat; assumption).
  set (p := a * y) in *. clearbody p.
  assert (Hpos : 0 < d -> 0 < p * d) by (intros; apply Qmult_lt_0_compat; assumption).
  assert (Hneg : d < 0 -> 0 < p * - d)
    by (intros; apply Qmult_lt_0_compat; [assumption | lra]).
  assert (Hmul : p * - d == - (p * d)) by ring.
  destruct (Q_dec d 0) as [[Hd | Hd] | Hd].
  - specialize (Hneg Hd). repeat split; intros; lra.
  - specialize (Hpos Hd). repeat split; intros; lra.
  - assert (Hz : p * d == 0) by (rewrite Hd; ring).
    repeat split; intros; lra.
Qed.

Lemma nonlinear_regulation_restoring_witness :
  ((1 # 2) < 1 - (2 # 10) / (8 # 10)
   <-> 0 < nonlinear_regulation (1 # 2) 0 (2 # 10) (8 # 10)) /\
  (1 - (2 # 10) / (8 # 10) < (1 # 2)
   <-> nonlinear_regulation (1 # 2) 0 (2 # 10) (8 # 10) < 0).
Proof.
  apply (nonlinear_regulation_restoring (1 # 2) 0 (2 # 10) (8 # 10)); reflexivity.
Defined.

(** X17: the coupled system is linear in its state: the derivative of a sum
    of states is the sum of the derivatives, and scaling the state scales the
    derivative, component by component. *)
Theorem coupled_system_superposition (t a b c x1 y1 x2 y2 s : Q) :
  fst (coupled_system (x1 + x2, y1 + y2) t a b c)
  == fst (coupled_system (x1, y1) t a b c) + fst (coupled_system (x2, y2) t a b c) /\
  snd (coupled_system (x1 + x2, y1 + y2) t a b c)
  == snd (coupled_system (x1, y1) t a b c) + snd (coupled_system (x2, y2) t a b c) /\
  fst (coupled_system (s * x1, s * y1) t a b c)
  == s * fst (coupled_system (x1, y1) t a b c) /\
  snd (coupled_system (s * x1, s * y1) t a b c)
  == s * snd (coupled_system (x1, y1) t a b c).
Proof.
  rewrite !coupled_system_Q. cbn [fst snd]. repeat split; ring.
Qed.

(** X18: how the models nest.  Without regulation ([a = 0]) the nonlinear
    model is the linear decay; without decay ([k = 0]) it is the logistic
    term alone; the driven component of the coupled system is a forced
    response of [x] at rate [a] with forcing [b * y]. *)
Theorem models_nest (x y t k a b c : Q) :
  nonlinear_regulation y t k 0 == linear_decay y t k /\
  nonlinear_regulation y t 0 a == a * y * (1 - y) /\
  fst (coupled_system (x, y) t a b c) == forced_response x t a (b * y) /\
  forced_response y t k c == linear_decay y t k + c.
Proof.
  rewrite !nonlinear_regulation_Q, !linear_decay_Q, coupled_system_Q, !forced_response_Q.
  cbn [fst]. repeat split; ring.
Qed.

End Direction.

(** ** Not-a-number in binary64 *)

Section NaN.
Local Open Scope float_scope.

(** X19: a NaN coefficient is never reported; it spreads.  With a NaN decay
    rate every model's derivative is NaN at every state, and with a NaN
    denominator the two equilibrium expressions return NaN instead of
    raising. *)
Theorem nan_coefficient_propagates (k y t c a : float) :
  PrimFloat.is_nan k = true ->
  PrimFloat.is_nan (linear_decay y t k) = true /\
  PrimFloat.is_nan (forced_response y t k c) = true /\
  PrimFloat.is_nan (nonlinear_regulation y t k a) = true /\
  PrimFloat.is_nan (snd (coupled_system (c, y) t a a k)) = true /\
  (exists v, equilibrium c k = Ok v /\ PrimFloat.is_nan v = true) /\
  (exists v, stable_eq c k = Ok v /\ PrimFloat.is_nan v = true).
Proof.
  intros Hk.
  assert (Hky : PrimFloat.is_nan (- k * y) = true) by (apply nan_mul_l, nan_opp, Hk).
  assert (Hdiv : truediv c k = Ok (c / k)).
  { unfold truediv. cbn [n_eqb n_of_Z n_div float_Number].
    rewrite (nan_is_not_zero k Hk). reflexivity. }
  split; [exact Hky |]. split; [apply nan_add_l, Hky |].
  split; [apply nan_add_l, Hky |]. split; [exact Hky |]. split.
  - exists (c / k). split; [exact Hdiv | apply nan_div_r, Hk].
  - exists (float_of_Z 1 - c / k). split.
    + unfold stable_eq. rewrite Hdiv. reflexivity.
    + apply nan_sub_r, nan_div_r, Hk.
Qed.

Lemma nan_coefficient_propagates_witness :
  PrimFloat.is_nan (linear_decay 10 0 nan) = true /\
  PrimFloat.is_nan (forced_response 10 0 nan 2) = true /\
  PrimFloat.is_nan (nonlinear_regulation 10 0 nan 0.8) = true /\
  PrimFloat.is_nan (snd (coupled_system (2, 10) 0 0.8 0.8 nan)) = true /\
  (exists v, equilibrium 2 nan = Ok v /\ PrimFloat.is_nan v = true) /\
  (exists v, stable_eq 2 nan = Ok v /\ PrimFloat.is_nan v = true).
Proof. apply (nan_coefficient_propagates nan 10 0 2 0.8). reflexivity. Defined.

(** X20: a NaN state gives a NaN derivative in the three scalar models.  In
    the coupled system a NaN [y] makes both components NaN, while a NaN [x]
    reaches only the first: the second does not read [x]. *)
Theorem nan_state_propagates (y x t k c a b : float) :
  PrimFloat.is_nan y = true ->
  PrimFloat.is_nan (linear_decay y t k) = true /\
  PrimFloat.is_nan (forced_response y t k c) = true /\
  PrimFloat.is_nan (nonlinear_regulation y t k a) = true /\
  PrimFloat.is_nan (fst (coupled_system (x, y) t a b c)) = true /\
  PrimFloat.is_nan (snd (coupled_system (x, y) t a b c)) = true /\
  PrimFloat.is_nan (fst (coupled_system (y, x) t a b c)) = true /\
  snd (coupled_system (y, x) t a b c) = linear_decay x t c.
Proof.
  intros Hy.
  assert (Hky : forall r : float, PrimFloat.is_nan (r * y) = true)
    by (intros r; apply nan_mul_r, Hy).
  repeat split.
  - apply Hky.
  - apply nan_add_l, Hky.
  - apply nan_add_l, Hky.
  - apply nan_add_r, Hky.
  - apply Hky.
  - apply nan_add_l, Hky.
Qed.

Lemma nan_state_propagates_witness :
  PrimFloat.is_nan (linear_decay nan 0 0.5) = true /\
  PrimFloat.is_nan (forced_response nan 0 0.5 2) = true /\
  PrimFloat.is_nan (nonlinear_regulation nan 0 0.5 0.8) = true /\
  PrimFloat.is_nan (fst (coupled_system (5, nan) 0 0.8 0.5 2)) = true /\
  PrimFloat.is_nan (snd (coupled_system (5, nan) 0 0.8 0.5 2)) = true /\
  PrimFloat.is_nan (fst (coupled_system (nan, 5) 0 0.8 0.5 2)) = true /\
  snd (coupled_system (nan, 5) 0 0.8 0.5 2) = linear_decay 5 0 2.
Proof. apply (nan_state_propagates nan 5 0 0.5 2 0.8 0.5). reflexivity. Defined.

End NaN.

(** ** End point and direction of the grid *)

(** X21: in every number type, binary64 included, a grid of two or more
    points ends with [stop] itself: the last sample is assigned, not
    computed, so no rounding can move it. *)
Theorem linspace_last_is_stop {A : Type} `{Number A} (start stop : A) (num : Z) :
  (2 <= num)%Z ->
  exists y,
    np.linspace start stop num = Ok y /\
    length y = Z.to_nat num /\
    last y = Some stop.
Proof.
  intros Hnum. unfold np.linspace.
  destruct (Z.ltb_spec num 0) as [? | _]; [lia |].
  destruct (Z.ltb_spec 1 num) as [_ | ?]; [| lia].
  match goal with |- context [np.set_last ?l stop] => set (body := l) end.
  assert (Hlen : length body = Z.to_nat num).
  { subst body. rewrite length_map.
    destruct (0 <? num - 1)%Z; [destruct (n_eqb _ _) |];
      rewrite length_map; apply length_arange. }
  eexists. split; [reflexivity |]. split.
  - rewrite length_set_last. exact Hlen.
  - rewrite last_lookup, length_set_last. unfold np.set_last.
    apply list_lookup_insert_eq. lia.
Qed.

Lemma linspace_last_is_stop_witness :
  exists y,
    np.linspace 0%float 30%float 100 = Ok y /\
    length y = Z.to_nat 100 /\
    last y = Some 30%float.
Proof. apply (linspace_last_is_stop 0%float 30%float 100). lia. Defined.

(** X22: over the rationals, swapping the bounds reverses the grid: sample
    [i] of the grid from [stop] to [start] equals sample [num - 1 - i] of the
    grid from [start] to [stop]. *)
Theorem linspace_swapped_bounds (start stop : Q) (num : Z) (i : nat) :
  (2 <= num)%Z ->
  (i < Z.to_nat num)%nat ->
  exists y y' v v',
    np.linspace start stop num = Ok y /\
    np.linspace stop start num = Ok y' /\
    y' !! i = Some v' /\
    y !! (Z.to_nat num - 1 - i)%nat = Some v /\
    (v' == v)%Q.
Proof.
  intros Hnum Hi.
  destruct (linspace_Q_samples start stop num Hnum) as (y & Hy & _ & Hs).
  destruct (linspace_Q_samples stop start num Hnum) as (y' & Hy' & _ & Hs').
  destruct (Hs (Z.to_nat num - 1 - i)%nat) as (v & Hv & Hvs); [lia |].
  destruct (Hs' i Hi) as (v' & Hv' & Hvs').
  exists y, y', v, v'. repeat (split; [assumption |]).
  rewrite Hvs, Hvs'.
  replace (Z.of_nat (Z.to_nat num - 1 - i)) with (num - 1 - Z.of_nat i)%Z by lia.
  unfold Z.sub. rewrite !inject_Z_plus, !inject_Z_opp.
  change (inject_Z 1) with 1%Q. field.
  intros E. assert (Hp : (0 < inject_Z num + - 1)%Q).
  { change (- 1)%Q with (inject_Z (- 1)). rewrite <- inject_Z_plus.
    apply (inject_Z_pred_pos num Hnum). }
  lra.
Qed.

Lemma linspace_swapped_bounds_witness :
  exists y y' v v',
    np.linspace 0%Q 20%Q 5 = Ok y /\
    np.linspace 20%Q 0%Q 5 = Ok y' /\
    y' !! 1%nat = Some v' /\
    y !! (Z.to_nat 5 - 1 - 1)%nat = Some v /\
    (v' == v)%Q.
Proof. apply (linspace_swapped_bounds 0 20 5 1); [lia | cbn; lia]. Defined.
